(** * pysparky.utils: column and table helpers over the host engine

    The module [pysparky/utils.py] holds three helpers written on top of
    the DataFrame and Column API of the host engine (pyspark):
    [create_map_from_dict], [join_dataframes_on_column] and
    [union_dataframes].  The engine is not part of the repository, so its
    entry points form the interface [Engine]; the helpers are embedded
    over any engine, and a small executable one ([RefEngine]) is given at
    the end of the definitions to run them on concrete inputs. *)

From stdpp Require Import base list strings.

(** ** Python values and exceptions *)

(** The exceptions the helpers can end with: the [ValueError] they raise
    themselves, the [TypeError] and [AttributeError] of the Python
    runtime, and the engine's own [AnalysisException]. *)
Inductive exn : Type :=
| ValueError (msg : string)
| TypeError (msg : string)
| AttributeError (msg : string)
| AnalysisException (msg : string).

Inductive Result (A : Type) : Type :=
| Ok (a : A)
| Raise (e : exn).
Arguments Ok {A} a.
Arguments Raise {A} e.

Definition result_map {A B : Type} (f : A -> B) (r : Result A) : Result B :=
  match r with
  | Ok a => Ok (f a)
  | Raise e => Raise e
  end.

(** A key or a value of the dictionary handed to [create_map_from_dict]
    ([dict[str, int]]): [itertools.chain] yields both kinds in one
    stream. *)
Inductive pyscalar : Type :=
| PyStr (s : string)
| PyInt (z : Z).

#[global] Instance pyscalar_eq_dec : EqDecision pyscalar.
Proof. solve_decision. Defined.

(** A Python [dict]: its items in insertion order; the keys of a
    well-formed dictionary are pairwise distinct. *)
Definition pydict : Type := list (string * Z).

Definition items (dict_ : pydict) : list (string * Z) := dict_.

Definition wf_dict (dict_ : pydict) : Prop := NoDup (dict_.*1).

(** [itertools.chain] over the unpacked item tuples: each tuple [(k, v)]
    contributes its two components, one after the other. *)
Definition tuple_elems (kv : string * Z) : list pyscalar :=
  [PyStr kv.1; PyInt kv.2].

Definition chain (tuples : list (string * Z)) : list pyscalar :=
  concat (tuple_elems <$> tuples).

(** One positional argument of the two table helpers: each is a
    [DataFrame] or a [list[DataFrame]]. *)
Inductive pyval (DataFrame : Type) : Type :=
| PyDF (d : DataFrame)
| PyList (l : list DataFrame).
Arguments PyDF {DataFrame} d.
Arguments PyList {DataFrame} l.

(** ** The engine *)

(** Handles on the engine's tables and column expressions, the state of
    the engine's session, and the entry points the helpers call: [F.lit],
    [F.create_map], the attribute [df.columns] and the methods
    [df.join(other, on=, how=)] and [df.union(other)].  The two methods
    receive whatever operand the helper hands them.  [df_count] and
    [map_get] are not called by the helpers: they are the observations
    ([df.count()], and the value under a key of a map column, [None] for
    NULL) in which the properties of the results are stated. *)
Class Engine : Type := {
  DataFrame : Type;
  Column : Type;
  World : Type;
  F_lit : pyscalar -> Column;
  F_create_map : list Column -> Result Column;
  df_columns : World -> DataFrame -> list string;
  df_join :
    DataFrame -> pyval DataFrame -> string -> string -> World ->
    Result DataFrame * World;
  df_union : DataFrame -> pyval DataFrame -> World -> Result DataFrame * World;
  df_count : World -> DataFrame -> nat;
  map_get : Column -> pyscalar -> option pyscalar
}.

(** ** The session with the engine *)

(** What a helper asked of the engine, in the order it asked. *)
Inductive EngineCall {E : Engine} : Type :=
| ReadColumns (d : DataFrame)
| CallJoin (d : DataFrame) (other : pyval DataFrame) (on how : string)
| CallUnion (d : DataFrame) (other : pyval DataFrame).

Record Session {E : Engine} : Type := mkSession {
  world : World;
  calls : list EngineCall
}.

Definition log {E : Engine} (c : EngineCall) (w : World) (s : Session)
    : Session :=
  {| world := w; calls := calls s ++ [c] |}.

(** Computations that talk to the engine and may raise. *)
Definition M {E : Engine} (A : Type) : Type := Session -> Result A * Session.

Definition ret {E : Engine} {A : Type} (a : A) : M A := fun s => (Ok a, s).

Definition raise {E : Engine} {A : Type} (e : exn) : M A :=
  fun s => (Raise e, s).

Definition bind {E : Engine} {A B : Type} (m : M A) (k : A -> M B) : M B :=
  fun s =>
    match m s with
    | (Ok a, s') => k a s'
    | (Raise e, s') => (Raise e, s')
    end.

Notation "x <- m ;; k" := (bind m (fun x => k))
  (at level 100, m at next level, right associativity).

Section Utils.

Context {E : Engine}.

(** [df.columns]; a Python list has no such attribute. *)
Definition getattr_columns (df : pyval DataFrame) : M (list string) :=
  fun s =>
    match df with
    | PyDF d => (Ok (df_columns (world s) d), log (ReadColumns d) (world s) s)
    | PyList _ =>
        (Raise (AttributeError "'list' object has no attribute 'columns'"), s)
    end.

(** [df1.join(df2, on=on, how=how)]. *)
Definition method_join (df1 df2 : pyval DataFrame) (on how : string)
    : M (pyval DataFrame) :=
  fun s =>
    match df1 with
    | PyDF d1 =>
        let (r, w) := df_join d1 df2 on how (world s) in
        (result_map PyDF r, log (CallJoin d1 df2 on how) w s)
    | PyList _ =>
        (Raise (AttributeError "'list' object has no attribute 'join'"), s)
    end.

(** [df1.union(df2)]. *)
Definition method_union (df1 df2 : pyval DataFrame) : M (pyval DataFrame) :=
  fun s =>
    match df1 with
    | PyDF d1 =>
        let (r, w) := df_union d1 df2 (world s) in
        (result_map PyDF r, log (CallUnion d1 df2) w s)
    | PyList _ =>
        (Raise (AttributeError "'list' object has no attribute 'union'"), s)
    end.

(** ** Python built-ins *)

(** [all(pred(x) for x in xs)]: the generator is consumed up to the
    first element whose test is false. *)
Fixpoint py_all {A : Type} (pred : A -> M bool) (xs : list A) : M bool :=
  match xs with
  | [] => ret true
  | x :: xs' => b <- pred x ;; if b : bool then py_all pred xs' else ret false
  end.

(** [functools.reduce(function, iterable)] without an initial value:
    the first element starts the accumulator, an empty iterable is a
    [TypeError]. *)
Fixpoint reduce_from {A : Type} (function : A -> A -> M A) (value : A)
    (it : list A) : M A :=
  match it with
  | [] => ret value
  | element :: it' => v <- function value element ;; reduce_from function v it'
  end.

Definition reduce {A : Type} (function : A -> A -> M A) (iterable : list A)
    : M A :=
  match iterable with
  | [] => raise (TypeError "reduce() of empty iterable with no initial value")
  | value :: it => reduce_from function value it
  end.

(** [not dataframes] on the tuple of positional arguments. *)
Definition is_empty {A : Type} (xs : list A) : bool :=
  match xs with
  | [] => true
  | _ :: _ => false
  end.

(** [if isinstance(dataframes[0], list): dataframes = dataframes[0]],
    on a tuple known to be non-empty. *)
Definition flatten_first (dataframes : list (pyval DataFrame))
    : list (pyval DataFrame) :=
  match dataframes with
  | PyList l :: _ => PyDF <$> l
  | _ => dataframes
  end.

(** ** The helpers *)

(** [create_map_from_dict], utils.py line 25. *)
Definition create_map_from_dict (dict_ : pydict) : Result Column :=
  F_create_map (F_lit <$> chain (items dict_)).

(** The test of the generator in the column check,
    [column_name in df.columns]. *)
Definition column_check (column_name : string) (df : pyval DataFrame)
    : M bool :=
  cols <- getattr_columns df ;; ret (bool_decide (column_name ∈ cols)).

(** [join_dataframes_on_column], utils.py lines 42-56. *)
Definition join_dataframes_on_column (column_name : string)
    (dataframes : list (pyval DataFrame)) : M (pyval DataFrame) :=
  if is_empty dataframes then
    raise (ValueError "At least one DataFrame must be provided")
  else
    let dataframes := flatten_first dataframes in
    ok <- py_all (column_check column_name) dataframes ;;
    if negb ok then
      raise (ValueError
               ("Column '" +:+ column_name +:+ "' not found in all DataFrames"))
    else
      reduce (fun df1 df2 => method_join df1 df2 column_name "outer")
             dataframes.

(** [union_dataframes], utils.py lines 71-78. *)
Definition union_dataframes (dataframes : list (pyval DataFrame))
    : M (pyval DataFrame) :=
  if is_empty dataframes then
    raise (ValueError "At least one DataFrame must be provided")
  else
    let dataframes := flatten_first dataframes in
    reduce (fun df1 df2 => method_union df1 df2) dataframes.

(** ** The nested form of the specification *)

(** The specification writes the result of the two table helpers as
    [((d1 op d2) op d3) ... op dn]: the result for [d1 .. dn] is the
    result for [d1 .. d(n-1)] combined with [dn].  [nest] follows that
    reading, by recursion on the operands after the first taken from
    the last one backwards; a failing step ends the chain. *)
Fixpoint nest {A : Type} (op : A -> A -> M A) (d1 : A) (later_rev : list A)
    : M A :=
  match later_rev with
  | [] => ret d1
  | dn :: before => acc <- nest op d1 before ;; op acc dn
  end.

Definition outer_join_chain (column_name : string) (d1 : DataFrame)
    (later : list DataFrame) : M (pyval DataFrame) :=
  nest (fun a b => method_join a b column_name "outer")
       (PyDF d1) (rev (PyDF <$> later)).

Definition union_chain (d1 : DataFrame) (later : list DataFrame)
    : M (pyval DataFrame) :=
  nest method_union (PyDF d1) (rev (PyDF <$> later)).

(** The session after the column check of [join_dataframes_on_column]
    has read [df.columns] of each of [ds]. *)
Definition after_reads (ds : list DataFrame) (s : Session) : Session :=
  {| world := world s; calls := calls s ++ (ReadColumns <$> ds) |}.

(** The operands the column check looks at: up to and including the
    first one without the column. *)
Fixpoint checked (column_name : string) (w : World) (ds : list DataFrame)
    : list DataFrame :=
  match ds with
  | [] => []
  | d :: ds' =>
      if bool_decide (column_name ∈ df_columns w d)
      then d :: checked column_name w ds'
      else [d]
  end.

(** The two ways a caller hands the tables [ds] to a table helper: as
    the positional arguments, or as one list in the first position
    (whatever follows it). *)
Definition supplied (ds : list DataFrame) (args : list (pyval DataFrame))
    : Prop :=
  args = PyDF <$> ds \/ exists rest, args = PyList ds :: rest.

Definition is_union_call (c : EngineCall) : bool :=
  match c with
  | CallUnion _ _ => true
  | _ => false
  end.

(** A join asked of the engine on [column_name] with [how="outer"]. *)
Definition is_outer_join_on (column_name : string) (c : EngineCall) : bool :=
  match c with
  | CallJoin _ _ on how =>
      bool_decide (on = column_name) && bool_decide (how = "outer")
  | _ => false
  end.

End Utils.

(** ** A reference engine *)

(** An executable engine with the documented behaviour of the host's
    entry points, small enough to run the helpers on concrete tables:
    a column expression is a tree, a table is its column names and its
    rows of nullable integers, and the session holds the tables built so
    far, a [DataFrame] being the position of one of them. *)
Module RefEngine.

#[warnings="-register-all"]
Inductive Col : Type :=
| Lit (v : pyscalar)
| CreateMap (children : list Col).

Record Table : Type := mkTable {
  t_columns : list string;
  t_rows : list (list (option Z))
}.

Abbreviation Tables := (list Table).

(** [create_map(k1, v1, k2, v2, ...)] groups its arguments in
    key-value pairs. *)
Fixpoint pair_up (cols : list Col) : option (list (pyscalar * pyscalar)) :=
  match cols with
  | [] => Some []
  | Lit k :: Lit v :: rest => cons (k, v) <$> pair_up rest
  | _ => None
  end.

Fixpoint assoc (k : pyscalar) (kvs : list (pyscalar * pyscalar))
    : option pyscalar :=
  match kvs with
  | [] => None
  | (k', v) :: kvs' => if decide (k' = k) then Some v else assoc k kvs'
  end.

Definition get (c : Col) (k : pyscalar) : option pyscalar :=
  match c with
  | CreateMap children => kvs ← pair_up children; assoc k kvs
  | Lit _ => None
  end.

Definition columns (w : Tables) (d : nat) : list string :=
  match w !! d with
  | Some t => t_columns t
  | None => []
  end.

Definition count (w : Tables) (d : nat) : nat :=
  match w !! d with
  | Some t => length (t_rows t)
  | None => 0
  end.

(** [union] appends the rows by position and keeps the column names of
    the left table; the two tables must have as many columns. *)
Definition union (d : nat) (other : pyval nat) (w : Tables)
    : Result nat * Tables :=
  match other with
  | PyList _ =>
      (Raise (AttributeError "'list' object has no attribute '_jdf'"), w)
  | PyDF e =>
      match w !! d, w !! e with
      | Some a, Some b =>
          if decide (length (t_columns a) = length (t_columns b)) then
            (Ok (length w),
             w ++ [mkTable (t_columns a) (t_rows a ++ t_rows b)])
          else
            (Raise (AnalysisException
                      "Union can only be performed on tables with the same number of columns"),
             w)
      | _, _ => (Raise (AnalysisException "no such table"), w)
      end
  end.

Fixpoint index_of (x : string) (l : list string) : option nat :=
  match l with
  | [] => None
  | y :: l' => if decide (y = x) then Some 0 else S <$> index_of x l'
  end.

Definition cell (i : nat) (row : list (option Z)) : option Z :=
  mjoin (row !! i).

Definition same_key (i j : nat) (ra rb : list (option Z)) : bool :=
  match cell i ra, cell j rb with
  | Some x, Some y => bool_decide (x = y)
  | _, _ => false
  end.

(** The rows of [a] each with the rows of [b] of the same key, or with
    NULLs when [b] has none. *)
Definition left_rows (i j width_b : nat) (a b : list (list (option Z)))
    : list (list (option Z)) :=
  ra ← a;
  match filter (fun rb => same_key i j ra rb) b with
  | [] => [cell i ra :: delete i ra ++ replicate (width_b - 1) None]
  | ms => (fun rb => cell i ra :: delete i ra ++ delete j rb) <$> ms
  end.

(** The rows of [b] whose key no row of [a] has. *)
Definition right_only_rows (i j width_a : nat) (a b : list (list (option Z)))
    : list (list (option Z)) :=
  rb ← b;
  match filter (fun ra => same_key i j ra rb) a with
  | [] => [cell j rb :: replicate (width_a - 1) None ++ delete j rb]
  | _ => []
  end.

(** [join(other, on=, how="outer")]: the key column first, then the
    other columns of the left and of the right table. *)
Definition join (d : nat) (other : pyval nat) (on how : string) (w : Tables)
    : Result nat * Tables :=
  match other with
  | PyList _ =>
      (Raise (AttributeError "'list' object has no attribute '_jdf'"), w)
  | PyDF e =>
      match w !! d, w !! e with
      | Some a, Some b =>
          match index_of on (t_columns a), index_of on (t_columns b) with
          | Some i, Some j =>
              if decide (how = "outer") then
                (Ok (length w),
                 w ++ [mkTable
                         (on :: delete i (t_columns a) ++ delete j (t_columns b))
                         (left_rows i j (length (t_columns b))
                                    (t_rows a) (t_rows b) ++
                          right_only_rows i j (length (t_columns a))
                                          (t_rows a) (t_rows b))])
              else
                (Raise (AnalysisException "unsupported join type"), w)
          | _, _ =>
              (Raise (AnalysisException "cannot resolve the join column"), w)
          end
      | _, _ => (Raise (AnalysisException "no such table"), w)
      end
  end.

#[global] Instance engine : Engine := {|
  DataFrame := nat;
  Column := Col;
  World := Tables;
  F_lit := Lit;
  F_create_map := fun cols => Ok (CreateMap cols);
  df_columns := columns;
  df_join := join;
  df_union := union;
  df_count := count;
  map_get := get
|}.

(** A table is live when the session holds it. *)
Definition live (w : Tables) (d : nat) : Prop := d < length w.

(** Two tables can be unioned when they have as many columns. *)
Definition compatible (w : Tables) (d e : nat) : Prop :=
  length (columns w d) = length (columns w e).

(** Three small tables: two keyed by [id], one without that column. *)
Definition people : Table :=
  mkTable ["id"; "age"] [[Some 1; Some 30]; [Some 2; Some 41]]%Z.
Definition cities : Table :=
  mkTable ["id"; "zip"] [[Some 2; Some 75]; [Some 3; Some 13]]%Z.
Definition scores : Table :=
  mkTable ["name"; "score"] [[Some 7; Some 9]]%Z.

Definition tables0 : Tables := [people; cities; scores].

Definition session0 : Session := {| world := tables0; calls := [] |}.

End RefEngine.

(** The reference engine with a [join] that refuses every call (as an
    engine does that cannot resolve a join), to run the helpers against
    an error of the engine. *)
Definition refusing_join : Engine := {|
  DataFrame := nat;
  Column := RefEngine.Col;
  World := list RefEngine.Table;
  F_lit := RefEngine.Lit;
  F_create_map := fun cols => Ok (RefEngine.CreateMap cols);
  df_columns := RefEngine.columns;
  df_join := fun _ _ _ _ w => (Raise (AnalysisException "join refused"), w);
  df_union := RefEngine.union;
  df_count := RefEngine.count;
  map_get := RefEngine.get
|}.

(** * Properties *)

Section Facts.

Context {E : Engine}.

Implicit Types (d : DataFrame) (ds later : list DataFrame).
Implicit Types (s : Session) (args : list (pyval DataFrame)).

(** ** The session after the column reads *)

Lemma after_reads_nil s : after_reads [] s = s.
Proof. destruct s as [w cs]. unfold after_reads. simpl. now rewrite app_nil_r. Qed.

Lemma after_reads_cons d ds s :
  after_reads ds (log (ReadColumns d) (world s) s) = after_reads (d :: ds) s.
Proof. unfold after_reads, log. simpl. now rewrite <- app_assoc. Qed.

(** ** Flattening of the arguments *)

Lemma supplied_flatten ds args :
  ds <> [] -> supplied ds args ->
  is_empty args = false /\ flatten_first args = PyDF <$> ds.
Proof.
  intros Hne [-> | [rest ->]].
  - destruct ds as [|d ds]; [congruence | easy].
  - easy.
Qed.

(** ** The column check *)

Lemma py_all_columns column_name ds s :
  py_all (column_check column_name) (PyDF <$> ds) s
  = (Ok (forallb (fun d => bool_decide (column_name ∈ df_columns (world s) d)) ds),
     after_reads (checked column_name (world s) ds) s).
Proof.
  revert s. induction ds as [|d ds IH]; intros s.
  - simpl. unfold ret. now rewrite after_reads_nil.
  - simpl. unfold bind at 1. unfold column_check at 1.
    unfold bind at 1. simpl. unfold ret at 1.
    destruct (bool_decide (column_name ∈ df_columns (world s) d)) eqn:Hd.
    + rewrite IH. simpl. now rewrite after_reads_cons.
    + simpl. unfold ret. now rewrite <- after_reads_cons, after_reads_nil.
Qed.

Lemma checked_all column_name (w : World) ds :
  Forall (fun d => column_name ∈ df_columns w d) ds ->
  checked column_name w ds = ds
  /\ forallb (fun d => bool_decide (column_name ∈ df_columns w d)) ds = true.
Proof.
  induction 1 as [|d ds Hd _ [IH1 IH2]]; [easy|].
  simpl. rewrite (bool_decide_eq_true_2 _ Hd). simpl. now rewrite IH1, IH2.
Qed.

Lemma checked_some column_name (w : World) ds :
  Exists (fun d => column_name ∉ df_columns w d) ds ->
  forallb (fun d => bool_decide (column_name ∈ df_columns w d)) ds = false.
Proof.
  induction 1 as [d ds Hd | d ds _ IH]; simpl.
  - now rewrite (bool_decide_eq_false_2 _ Hd).
  - rewrite IH. apply andb_false_r.
Qed.

(** ** [reduce] and the nested form *)

Lemma nest_snoc {A : Type} (op : A -> A -> M A) (a x : A) (l : list A) s :
  nest op a (l ++ [x]) s = bind (op a x) (fun v => nest op v l) s.
Proof.
  revert s. induction l as [|y l IH]; intros s; simpl.
  - unfold bind, ret. now destruct (op a x s) as [[v|e] s'].
  - unfold bind at 1. rewrite IH. unfold bind.
    now destruct (op a x s) as [[v|e] s'].
Qed.

Lemma reduce_from_nest {A : Type} (op : A -> A -> M A) (a : A) (l : list A) s :
  reduce_from op a l s = nest op a (rev l) s.
Proof.
  revert a s. induction l as [|x l IH]; intros a s; simpl; [easy|].
  rewrite nest_snoc. unfold bind.
  destruct (op a x s) as [[v|e] s']; [apply IH | easy].
Qed.

(** ** The two helpers on the operands [ds] *)

Lemma join_run column_name ds args s :
  ds <> [] -> supplied ds args ->
  join_dataframes_on_column column_name args s
  = if forallb (fun d => bool_decide (column_name ∈ df_columns (world s) d)) ds
    then reduce (fun df1 df2 => method_join df1 df2 column_name "outer")
                (PyDF <$> ds)
                (after_reads (checked column_name (world s) ds) s)
    else (Raise (ValueError ("Column '" +:+ column_name +:+
                             "' not found in all DataFrames")),
          after_reads (checked column_name (world s) ds) s).
Proof.
  intros Hne Hargs.
  destruct (supplied_flatten ds args Hne Hargs) as [Hemp Hflat].
  unfold join_dataframes_on_column. rewrite Hemp, Hflat.
  unfold bind. rewrite (py_all_columns column_name ds s).
  now destruct (forallb _ ds).
Qed.

Lemma union_run ds args s :
  ds <> [] -> supplied ds args ->
  union_dataframes args s
  = reduce (fun df1 df2 => method_union df1 df2) (PyDF <$> ds) s.
Proof.
  intros Hne Hargs.
  destruct (supplied_flatten ds args Hne Hargs) as [Hemp Hflat].
  unfold union_dataframes. now rewrite Hemp, Hflat.
Qed.

(** C1: for a non-empty sequence of tables [d1 :: later] that all have
    the column, handed over as positional arguments or as one list,
    [join_dataframes_on_column] first reads the columns of each and then
    returns what the left-nested chain of outer joins
    [((d1 join d2) join d3) ... join dn] on that column returns. *)
Theorem join_is_left_nested_outer_join column_name d1 later args s :
  supplied (d1 :: later) args ->
  Forall (fun d => column_name ∈ df_columns (world s) d) (d1 :: later) ->
  join_dataframes_on_column column_name args s
  = outer_join_chain column_name d1 later (after_reads (d1 :: later) s).
Proof.
  intros Hargs Hall.
  rewrite (join_run column_name (d1 :: later) args s); [|easy|easy].
  destruct (checked_all column_name (world s) (d1 :: later) Hall) as [-> ->].
  unfold outer_join_chain. simpl reduce. apply reduce_from_nest.
Qed.

(** C3: with no table at all, both table helpers raise and ask nothing of
    the engine, the session being left as it was: with no positional
    argument the [ValueError] of the guard, with an empty list in the
    first position the [TypeError] of [reduce]. *)
Theorem no_dataframe_raises column_name rest s :
  join_dataframes_on_column column_name [] s
  = (Raise (ValueError "At least one DataFrame must be provided"), s)
  /\ union_dataframes [] s
     = (Raise (ValueError "At least one DataFrame must be provided"), s)
  /\ join_dataframes_on_column column_name (PyList [] :: rest) s
     = (Raise (TypeError "reduce() of empty iterable with no initial value"), s)
  /\ union_dataframes (PyList [] :: rest) s
     = (Raise (TypeError "reduce() of empty iterable with no initial value"), s).
Proof. repeat split; reflexivity. Qed.

(** C4: when one of the tables of a non-empty sequence, handed over in
    either way, lacks the column, [join_dataframes_on_column] raises its
    [ValueError]; all it asked of the engine is the columns of the tables
    up to the first one without the column, so no join was made and the
    engine's state is the one it started from. *)
Theorem join_missing_column_raises column_name ds args s :
  supplied ds args ->
  Exists (fun d => column_name ∉ df_columns (world s) d) ds ->
  join_dataframes_on_column column_name args s
  = (Raise (ValueError
              ("Column '" +:+ column_name +:+ "' not found in all DataFrames")),
     {| world := world s;
        calls := calls s ++ (ReadColumns <$> checked column_name (world s) ds) |}).
Proof.
  intros Hargs Hex.
  assert (Hne : ds <> []) by (intros ->; inversion Hex).
  rewrite (join_run column_name ds args s Hne Hargs).
  now rewrite (checked_some column_name (world s) ds Hex).
Qed.

(** C10: handed one table [d], as the only positional argument or as a
    one-element list, [join_dataframes_on_column] (when [d] has the
    column) and [union_dataframes] return [d] itself: the engine is
    asked for the columns of [d] by the former and for nothing by the
    latter, and no join or union is made. *)
Theorem single_dataframe_is_returned column_name d args s :
  supplied [d] args ->
  (column_name ∈ df_columns (world s) d ->
   join_dataframes_on_column column_name args s
   = (Ok (PyDF d), {| world := world s; calls := calls s ++ [ReadColumns d] |}))
  /\ union_dataframes args s = (Ok (PyDF d), s).
Proof.
  intros Hargs. split.
  - intros Hd.
    rewrite (join_run column_name [d] args s); [|easy|easy].
    simpl. now rewrite (bool_decide_eq_true_2 _ Hd).
  - now rewrite (union_run [d] args s).
Qed.

(** C9: when the first positional argument is a list [l] of tables, both
    helpers work on [l] and ignore the arguments after it: the call
    returns what it returns without them and, for a non-empty [l], what
    the call with the tables of [l] as positional arguments returns; the
    column check of the join is made on the tables of [l]. *)
Theorem list_argument_is_flattened column_name l rest s :
  join_dataframes_on_column column_name (PyList l :: rest) s
  = join_dataframes_on_column column_name [PyList l] s
  /\ union_dataframes (PyList l :: rest) s = union_dataframes [PyList l] s
  /\ (l <> [] ->
      join_dataframes_on_column column_name (PyList l :: rest) s
      = join_dataframes_on_column column_name (PyDF <$> l) s
      /\ union_dataframes (PyList l :: rest) s = union_dataframes (PyDF <$> l) s)
  /\ (Exists (fun d => column_name ∉ df_columns (world s) d) l ->
      (join_dataframes_on_column column_name (PyList l :: rest) s).1
      = Raise (ValueError
                 ("Column '" +:+ column_name +:+ "' not found in all DataFrames"))).
Proof.
  split; [reflexivity|]. split; [reflexivity|]. split.
  - intros Hne. split.
    + rewrite (join_run column_name l (PyList l :: rest) s Hne);
        [|right; now exists rest].
      now rewrite (join_run column_name l (PyDF <$> l) s Hne); [|left].
    + rewrite (union_run l (PyList l :: rest) s Hne); [|right; now exists rest].
      now rewrite (union_run l (PyDF <$> l) s Hne); [|left].
  - intros Hex.
    assert (Hne : l <> []) by (intros ->; inversion Hex).
    rewrite (join_run column_name l (PyList l :: rest) s Hne);
      [|right; now exists rest].
    now rewrite (checked_some column_name (world s) l Hex).
Qed.

(** ** What [union_dataframes] asks of the engine *)

Lemma reduce_union_calls (a : pyval DataFrame) (l : list (pyval DataFrame)) s :
  exists new,
    calls (reduce_from method_union a l s).2 = calls s ++ new
    /\ forallb is_union_call new = true
    /\ length new <= length l.
Proof.
  revert a s. induction l as [|x l IH]; intros a s; simpl.
  - exists []. rewrite app_nil_r. split; [easy|]. split; [easy|simpl; lia].
  - unfold bind. destruct a as [d1|l1]; simpl.
    + destruct (df_union d1 x (world s)) as [[c|e] w]; simpl.
      * destruct (IH (PyDF c) (log (CallUnion d1 x) w s)) as (new & Hc & Hu & Hl).
        exists (CallUnion d1 x :: new). rewrite Hc. simpl.
        rewrite <- app_assoc. split; [easy|]. split; [easy|simpl; lia].
      * exists [CallUnion d1 x]. split; [easy|]. split; [easy|simpl; lia].
    + exists []. rewrite app_nil_r. split; [easy|]. split; [easy|simpl; lia].
Qed.

(** C5: for a non-empty sequence of tables [d1 :: later], handed over in
    either way, [union_dataframes] returns what the left-nested chain of
    unions [((d1 union d2) union d3) ... union dn] returns, an error of
    the engine included; it holds for any tables, whatever their schemas,
    and all the helper asks of the engine is unions, at most one for each
    table after the first: it reads no schema. *)
Theorem union_is_left_nested_union d1 later args s :
  supplied (d1 :: later) args ->
  union_dataframes args s = union_chain d1 later s
  /\ exists new,
       calls (union_dataframes args s).2 = calls s ++ new
       /\ forallb is_union_call new = true
       /\ length new <= length later.
Proof.
  intros Hargs.
  rewrite (union_run (d1 :: later) args s); [|easy|easy].
  split.
  - unfold union_chain. simpl reduce. apply reduce_from_nest.
  - simpl reduce.
    destruct (reduce_union_calls (PyDF d1) (PyDF <$> later) s)
      as (new & Hc & Hu & Hl).
    exists new. rewrite length_fmap in Hl. easy.
Qed.

(** ** What the helpers can do to the engine's state *)

Section Preserved.

(** A relation between the engine's states that every call of [join] and
    of [union] respects relates the state before a helper runs to the
    state after it: the helpers change the state through these two
    methods only. *)
Variable R : World -> World -> Prop.
Hypothesis R_refl : forall w, R w w.
Hypothesis R_trans : forall w1 w2 w3, R w1 w2 -> R w2 w3 -> R w1 w3.
Hypothesis R_join : forall d other on how w, R w (df_join d other on how w).2.
Hypothesis R_union : forall d other w, R w (df_union d other w).2.

Lemma method_join_preserves a b on how s :
  R (world s) (world (method_join a b on how s).2).
Proof.
  unfold method_join. destruct a as [d1|l1]; [|apply R_refl].
  pose proof (R_join d1 b on how (world s)) as H.
  now destruct (df_join d1 b on how (world s)) as [r w].
Qed.

Lemma method_union_preserves a b s :
  R (world s) (world (method_union a b s).2).
Proof.
  unfold method_union. destruct a as [d1|l1]; [|apply R_refl].
  pose proof (R_union d1 b (world s)) as H.
  now destruct (df_union d1 b (world s)) as [r w].
Qed.

Lemma reduce_preserves (op : pyval DataFrame -> pyval DataFrame -> M (pyval DataFrame))
    (l : list (pyval DataFrame)) s :
  (forall a b s0, R (world s0) (world (op a b s0).2)) ->
  R (world s) (world (reduce op l s).2).
Proof.
  intros Hop. destruct l as [|a l]; [apply R_refl|]. simpl.
  revert a s. induction l as [|x l IH]; intros a s; simpl; [apply R_refl|].
  unfold bind. pose proof (Hop a x s) as H.
  destruct (op a x s) as [[v|e] s1]; [|exact H].
  exact (R_trans _ _ _ H (IH v s1)).
Qed.

Lemma py_all_columns_world column_name (l : list (pyval DataFrame)) s :
  world (py_all (column_check column_name) l s).2 = world s.
Proof.
  revert s. induction l as [|x l IH]; intros s; simpl; [easy|].
  unfold bind at 1. unfold column_check at 1. unfold bind at 1.
  destruct x as [d|l']; simpl; [|easy].
  destruct (bool_decide _); [now rewrite IH | easy].
Qed.

Lemma join_preserves column_name args s :
  R (world s) (world (join_dataframes_on_column column_name args s).2).
Proof.
  unfold join_dataframes_on_column.
  destruct (is_empty args); [apply R_refl|].
  unfold bind.
  pose proof (py_all_columns_world column_name (flatten_first args) s) as Hw.
  destruct (py_all _ _ s) as [[ok|e] s1]; simpl in *; [|rewrite Hw; apply R_refl].
  destruct ok; simpl; [|rewrite Hw; apply R_refl].
  rewrite <- Hw. apply reduce_preserves. intros a b s0.
  apply method_join_preserves.
Qed.

Lemma union_preserves args s :
  R (world s) (world (union_dataframes args s).2).
Proof.
  unfold union_dataframes.
  destruct (is_empty args); [apply R_refl|].
  apply reduce_preserves. intros a b s0. apply method_union_preserves.
Qed.

End Preserved.

Section Frame.

(** The tables the engine holds in a state, and what can be observed of
    each of them; the engine's [join] and [union] build a new table and
    leave the existing ones as they are. *)
Variable live : World -> DataFrame -> Prop.
Variable Content : Type.
Variable content : World -> DataFrame -> Content.
Hypothesis join_frame : forall d other on how w x,
  live w x ->
  live (df_join d other on how w).2 x
  /\ content (df_join d other on how w).2 x = content w x.
Hypothesis union_frame : forall d other w x,
  live w x ->
  live (df_union d other w).2 x
  /\ content (df_union d other w).2 x = content w x.

(** C8: over an engine whose [join] and [union] leave the existing
    tables as they are, so do both helpers, whatever they are called
    with and however the call ends: every table the engine held before
    the call, the arguments among them, is still held and has the content
    it had. *)
Theorem helpers_leave_dataframes_unchanged column_name args s x :
  live (world s) x ->
  (live (world (join_dataframes_on_column column_name args s).2) x
   /\ content (world (join_dataframes_on_column column_name args s).2) x
      = content (world s) x)
  /\ (live (world (union_dataframes args s).2) x
      /\ content (world (union_dataframes args s).2) x = content (world s) x).
Proof.
  set (R := fun w w' : World =>
              forall y, live w y -> live w' y /\ content w' y = content w y).
  assert (Hrefl : forall w, R w w) by (intros w y Hy; easy).
  assert (Htrans : forall w1 w2 w3, R w1 w2 -> R w2 w3 -> R w1 w3).
  { intros w1 w2 w3 H12 H23 y Hy.
    destruct (H12 y Hy) as [Hy2 E2]. destruct (H23 y Hy2) as [Hy3 E3].
    split; [easy | congruence]. }
  assert (Hj : forall d other on how w, R w (df_join d other on how w).2)
    by (intros d other on how w y Hy; now apply join_frame).
  assert (Hu : forall d other w, R w (df_union d other w).2)
    by (intros d other w y Hy; now apply union_frame).
  intros Hx. split.
  - exact (join_preserves R Hrefl Htrans Hj column_name args s x Hx).
  - exact (union_preserves R Hrefl Htrans Hu args s x Hx).
Qed.

End Frame.

(** ** Row counts of a union *)

Section UnionCount.

(** The engine's contract for [union]: on two tables it holds whose
    schemas are compatible it returns a new table with the rows of both;
    the tables it held are still held with the rows they had, and the new
    table is compatible with every table the left operand was compatible
    with. *)
Variable live : World -> DataFrame -> Prop.
Variable compatible : World -> DataFrame -> DataFrame -> Prop.
Hypothesis union_contract : forall w a b,
  live w a -> live w b -> compatible w a b ->
  exists c w',
    df_union a (PyDF b) w = (Ok c, w')
    /\ live w' c
    /\ df_count w' c = df_count w a + df_count w b
    /\ forall d, live w d ->
         live w' d /\ df_count w' d = df_count w d
         /\ (compatible w a d -> compatible w' c d).

Lemma reduce_union_count later d1 s :
  live (world s) d1 ->
  Forall (live (world s)) later ->
  Forall (compatible (world s) d1) later ->
  exists d s',
    reduce_from method_union (PyDF d1) (PyDF <$> later) s = (Ok (PyDF d), s')
    /\ df_count (world s') d
       = df_count (world s) d1 + sum_list (df_count (world s) <$> later).
Proof.
  revert d1 s. induction later as [|d2 later IH]; intros d1 s H1 Hlive Hcomp.
  - exists d1, s. simpl. split; [easy|lia].
  - inversion Hlive as [|? ? H2 Hlive']; subst.
    inversion Hcomp as [|? ? C2 Hcomp']; subst.
    destruct (union_contract (world s) d1 d2 H1 H2 C2)
      as (c & w' & Hu & Hc & Hn & Hframe).
    simpl. unfold bind. unfold method_union at 1. rewrite Hu. simpl.
    set (s1 := log (CallUnion d1 (PyDF d2)) w' s).
    assert (Hlive1 : Forall (live (world s1)) later).
    { eapply Forall_impl; [exact Hlive'|]. intros d Hd. now apply Hframe. }
    assert (Hcomp1 : Forall (compatible (world s1) c) later).
    { rewrite Forall_forall in Hlive', Hcomp'. apply Forall_forall.
      intros d Hd. now apply Hframe; [apply Hlive' | apply Hcomp']. }
    destruct (IH c s1 Hc Hlive1 Hcomp1) as (d & s' & Hred & Hcnt).
    exists d, s'. split; [exact Hred|].
    subst s1. simpl in Hcnt. rewrite Hcnt. simpl. rewrite Hn.
    assert (Hsame : df_count w' <$> later = df_count (world s) <$> later).
    { clear -Hlive' Hframe. induction Hlive' as [|d later Hd _ IHl]; [easy|].
      rewrite !fmap_cons, IHl. f_equal. now apply Hframe. }
    rewrite Hsame. symmetry. apply Nat.add_assoc.
Qed.

(** C6: over an engine that keeps the contract above, for a non-empty
    sequence of tables the engine holds, each compatible with the first
    and handed over in either way, [union_dataframes] returns a table
    whose number of rows is the sum of the numbers of rows of the
    tables. *)
Theorem union_row_count d1 later args s :
  supplied (d1 :: later) args ->
  Forall (live (world s)) (d1 :: later) ->
  Forall (compatible (world s) d1) later ->
  exists d s',
    union_dataframes args s = (Ok (PyDF d), s')
    /\ df_count (world s') d = sum_list (df_count (world s) <$> d1 :: later).
Proof.
  intros Hargs Hlive Hcomp.
  rewrite (union_run (d1 :: later) args s); [|easy|easy].
  inversion Hlive as [|? ? H1 Hlive']; subst.
  exact (reduce_union_count later d1 s H1 Hlive' Hcomp).
Qed.

End UnionCount.

(** ** The map column of a dictionary *)

Lemma chain_literals (dict_ : pydict) :
  F_lit <$> chain (items dict_)
  = kv ← ((fun kv : string * Z => (PyStr kv.1, PyInt kv.2)) <$> dict_);
    [F_lit kv.1; F_lit kv.2].
Proof.
  unfold chain, items. induction dict_ as [|[k v] dict_ IH]; [easy|].
  rewrite !fmap_cons, bind_cons. cbn [concat]. rewrite fmap_app, IH.
  reflexivity.
Qed.

Section MapRoundTrip.

(** The engine's contract for [create_map]: from the literals of a
    non-empty sequence of key-value pairs with pairwise distinct keys,
    laid out [key1, value1, key2, value2, ...], it builds a map column
    in which each key has its value. *)
Hypothesis create_map_contract : forall kvs : list (pyscalar * pyscalar),
  kvs <> [] -> NoDup (kvs.*1) ->
  exists c,
    F_create_map (kv ← kvs; [F_lit kv.1; F_lit kv.2]) = Ok c
    /\ forall k v, (k, v) ∈ kvs -> map_get c k = Some v.

(** C2: over an engine that keeps the contract above, for every
    dictionary (its keys pairwise distinct) and every item [(k, v)] of
    it, [create_map_from_dict] returns a map column and looking [k] up in
    that column gives [v]. *)
Theorem create_map_round_trip (dict_ : pydict) (k : string) (v : Z) :
  wf_dict dict_ ->
  (k, v) ∈ items dict_ ->
  exists c,
    create_map_from_dict dict_ = Ok c
    /\ map_get c (PyStr k) = Some (PyInt v).
Proof.
  intros Hwf Hin. unfold create_map_from_dict. rewrite chain_literals.
  set (kvs := (fun kv : string * Z => (PyStr kv.1, PyInt kv.2)) <$> dict_).
  assert (Hne : kvs <> []).
  { unfold kvs. intros Hnil. apply fmap_nil_inv in Hnil. subst.
    unfold items in Hin. inversion Hin. }
  assert (Hnd : NoDup (kvs.*1)).
  { unfold kvs. rewrite <- list_fmap_compose.
    assert (Heq : (fst ∘ (fun kv : string * Z => (PyStr kv.1, PyInt kv.2))) <$> dict_
                  = PyStr <$> dict_.*1).
    { rewrite <- list_fmap_compose. now apply list_fmap_ext. }
    rewrite Heq. apply NoDup_fmap_2; [|exact Hwf]. intros a b Hab. congruence. }
  destruct (create_map_contract kvs Hne Hnd) as (c & Hc & Hget).
  exists c. split; [exact Hc|]. apply Hget.
  unfold kvs. apply list_elem_of_fmap. now exists (k, v).
Qed.

End MapRoundTrip.

(** C7, as the code has it: [create_map_from_dict] has no guard on an
    empty dictionary; it hands the engine's [create_map] an empty list
    of literals and returns or raises what the engine does, so it fails
    exactly when the engine rejects an empty list of arguments. *)
Theorem create_map_of_empty_dict :
  chain (items []) = []
  /\ create_map_from_dict [] = F_create_map []
  /\ ((exists e, create_map_from_dict [] = Raise e)
      <-> (exists e, F_create_map [] = Raise e)).
Proof. split; [reflexivity|]. split; [reflexivity|]. reflexivity. Qed.

End Facts.

(** ** The reference engine keeps the contracts *)

Module RefEngineFacts.

Import RefEngine.

Lemma pair_up_literals (kvs : list (pyscalar * pyscalar)) :
  pair_up (kv ← kvs; [Lit kv.1; Lit kv.2]) = Some kvs.
Proof.
  induction kvs as [|[k v] kvs IH]; [easy|].
  rewrite bind_cons. cbn [app pair_up fst snd]. now rewrite IH.
Qed.

Lemma assoc_item (kvs : list (pyscalar * pyscalar)) k v :
  NoDup (kvs.*1) -> (k, v) ∈ kvs -> assoc k kvs = Some v.
Proof.
  induction kvs as [|[k' v'] kvs IH]; intros Hnd Hin; [inversion Hin|].
  rewrite fmap_cons in Hnd. apply NoDup_cons in Hnd as [Hk' Hnd].
  simpl. apply elem_of_cons in Hin as [Heq | Hin].
  - injection Heq as -> ->. now rewrite decide_True.
  - destruct (decide (k' = k)) as [->|Hne]; [|now apply IH].
    exfalso. apply Hk'. apply list_elem_of_fmap. now exists (k, v).
Qed.

Lemma create_map_contract (kvs : list (pyscalar * pyscalar)) :
  kvs <> [] -> NoDup (kvs.*1) ->
  exists c,
    F_create_map (kv ← kvs; [F_lit kv.1; F_lit kv.2]) = Ok c
    /\ forall k v, (k, v) ∈ kvs -> map_get c k = Some v.
Proof.
  intros _ Hnd. eexists. split; [reflexivity|].
  intros k v Hin. simpl. unfold get.
  change (pair_up (kv ← kvs; [Lit kv.1; Lit kv.2]) ≫= assoc k = Some v).
  rewrite pair_up_literals. simpl. now apply assoc_item.
Qed.

Lemma live_lookup (w : Tables) d : live w d -> exists t, w !! d = Some t.
Proof. intros Hd. now apply lookup_lt_is_Some_2. Qed.

Lemma union_keeps (d : nat) (other : pyval nat) (w : Tables) (x : nat) :
  live w x ->
  live (union d other w).2 x /\ (union d other w).2 !! x = w !! x.
Proof.
  intros Hx. unfold union. destruct other as [e|l]; [|easy].
  destruct (w !! d) as [a|]; [|easy]. destruct (w !! e) as [b|]; [|easy].
  destruct (decide _); [|easy]. simpl. unfold live in *. split.
  - rewrite length_app. lia.
  - now apply lookup_app_l.
Qed.

Lemma join_keeps (d : nat) (other : pyval nat) (on how : string) (w : Tables)
    (x : nat) :
  live w x ->
  live (join d other on how w).2 x /\ (join d other on how w).2 !! x = w !! x.
Proof.
  intros Hx. unfold join. destruct other as [e|l]; [|easy].
  destruct (w !! d) as [a|]; [|easy]. destruct (w !! e) as [b|]; [|easy].
  destruct (index_of on (t_columns a)) as [i|]; [|easy].
  destruct (index_of on (t_columns b)) as [j|]; [|easy].
  destruct (decide _); [|easy]. simpl. unfold live in *. split.
  - rewrite length_app. lia.
  - now apply lookup_app_l.
Qed.

Lemma union_contract (w : Tables) (a b : nat) :
  live w a -> live w b -> compatible w a b ->
  exists c w',
    union a (PyDF b) w = (Ok c, w')
    /\ live w' c
    /\ count w' c = count w a + count w b
    /\ forall d, live w d ->
         live w' d /\ count w' d = count w d
         /\ (compatible w a d -> compatible w' c d).
Proof.
  intros Ha Hb Hab.
  destruct (live_lookup w a Ha) as [ta Hta].
  destruct (live_lookup w b Hb) as [tb Htb].
  unfold compatible, columns in Hab. rewrite Hta, Htb in Hab.
  unfold union. rewrite Hta, Htb, (decide_True _ _ Hab).
  eexists _, _. split; [reflexivity|].
  assert (Hnew : forall t : Table, (w ++ [t]) !! length w = Some t).
  { intros t. rewrite lookup_app_r by lia. now rewrite Nat.sub_diag. }
  split; [unfold live; rewrite length_app; simpl; lia|].
  split.
  - unfold count. rewrite Hnew, Hta, Htb. simpl. apply length_app.
  - intros d Hd.
    assert (Hsame : (w ++ [mkTable (t_columns ta) (t_rows ta ++ t_rows tb)]) !! d
                    = w !! d) by now apply lookup_app_l.
    split; [unfold live in *; rewrite length_app; lia|].
    split; [unfold count; now rewrite Hsame|].
    unfold compatible, columns. now rewrite Hnew, Hsame, Hta.
Qed.

End RefEngineFacts.

(** ** The helpers on the reference engine *)

(** The session [RefEngine.session0] holds [people] (0) and [cities]
    (1), both keyed by [id], and [scores] (2), which has no such
    column. *)

Example join_people_cities :
  (join_dataframes_on_column "id" [PyDF 0; PyDF 1] RefEngine.session0).1
  = Ok (PyDF 3)
  /\ (world (join_dataframes_on_column "id" [PyDF 0; PyDF 1]
                                       RefEngine.session0).2) !! 3
     = Some (RefEngine.mkTable ["id"; "age"; "zip"]
               [[Some 1; Some 30; None];
                [Some 2; Some 41; Some 75];
                [Some 3; None; Some 13]]%Z).
Proof. split; reflexivity. Qed.

Example union_with_a_list_operand :
  union_dataframes [PyDF 0; PyList [1]] RefEngine.session0
  = (Raise (AttributeError "'list' object has no attribute '_jdf'"),
     {| world := RefEngine.tables0; calls := [CallUnion 0 (PyList [1])] |}).
Proof. reflexivity. Qed.

Example join_with_a_list_operand :
  join_dataframes_on_column "id" [PyDF 0; PyList [1]] RefEngine.session0
  = (Raise (AttributeError "'list' object has no attribute 'columns'"),
     {| world := RefEngine.tables0; calls := [ReadColumns 0] |}).
Proof. reflexivity. Qed.

Example join_chain_calls :
  calls (outer_join_chain "id" 0 [1; 0] RefEngine.session0).2
  = [CallJoin 0 (PyDF 1) "id" "outer"; CallJoin 3 (PyDF 0) "id" "outer"].
Proof. reflexivity. Qed.

Lemma join_is_left_nested_outer_join_witness :
  join_dataframes_on_column "id" [PyDF 0; PyDF 1; PyDF 0] RefEngine.session0
  = outer_join_chain "id" 0 [1; 0] (after_reads [0; 1; 0] RefEngine.session0).
Proof.
  apply (join_is_left_nested_outer_join (E := RefEngine.engine) "id" 0 [1; 0]).
  - left. reflexivity.
  - repeat constructor; compute_done.
Defined.

Lemma join_missing_column_raises_witness :
  join_dataframes_on_column "id" [PyDF 0; PyDF 2; PyDF 1] RefEngine.session0
  = (Raise (ValueError "Column 'id' not found in all DataFrames"),
     {| world := RefEngine.tables0; calls := [ReadColumns 0; ReadColumns 2] |}).
Proof.
  apply (join_missing_column_raises (E := RefEngine.engine) "id" [0; 2; 1]).
  - left. reflexivity.
  - apply Exists_cons_tl, Exists_cons_hd. compute_done.
Defined.

Lemma single_dataframe_is_returned_witness :
  join_dataframes_on_column "id" [PyList [1]; PyDF 2] RefEngine.session0
  = (Ok (PyDF 1), {| world := RefEngine.tables0; calls := [ReadColumns 1] |})
  /\ union_dataframes [PyList [1]; PyDF 2] RefEngine.session0
     = (Ok (PyDF 1), RefEngine.session0).
Proof.
  destruct (single_dataframe_is_returned (E := RefEngine.engine) "id" 1
              [PyList [1]; PyDF 2] RefEngine.session0) as [Hjoin Hunion].
  - right. exists [PyDF 2]. reflexivity.
  - split; [apply Hjoin; compute_done | exact Hunion].
Defined.

Lemma list_argument_is_flattened_witness :
  join_dataframes_on_column "id" [PyList [0; 1]; PyDF 2] RefEngine.session0
  = join_dataframes_on_column "id" [PyDF 0; PyDF 1] RefEngine.session0
  /\ union_dataframes [PyList [0; 1]; PyDF 2] RefEngine.session0
     = union_dataframes [PyDF 0; PyDF 1] RefEngine.session0.
Proof.
  destruct (list_argument_is_flattened (E := RefEngine.engine) "id" [0; 1]
              [PyDF 2] RefEngine.session0) as (_ & _ & Hflat & _).
  apply Hflat. discriminate.
Defined.

Lemma union_is_left_nested_union_witness :
  union_dataframes [PyDF 0; PyDF 1; PyDF 2] RefEngine.session0
  = union_chain 0 [1; 2] RefEngine.session0.
Proof.
  apply (union_is_left_nested_union (E := RefEngine.engine) 0 [1; 2]).
  left. reflexivity.
Defined.

Lemma union_row_count_witness :
  exists d s',
    union_dataframes [PyDF 0; PyDF 1; PyDF 2] RefEngine.session0
    = (Ok (PyDF d), s')
    /\ df_count (world s') d = 5.
Proof.
  apply (union_row_count (E := RefEngine.engine)
           RefEngine.live RefEngine.compatible RefEngineFacts.union_contract
           0 [1; 2] [PyDF 0; PyDF 1; PyDF 2] RefEngine.session0).
  - left. reflexivity.
  - repeat constructor; unfold RefEngine.live; simpl; lia.
  - repeat constructor.
Defined.

Lemma helpers_leave_dataframes_unchanged_witness :
  (RefEngine.live
     (world (join_dataframes_on_column "id" [PyDF 0; PyDF 1]
                                       RefEngine.session0).2) 1
   /\ world (join_dataframes_on_column "id" [PyDF 0; PyDF 1]
                                       RefEngine.session0).2 !! 1
      = Some RefEngine.cities)
  /\ (RefEngine.live
        (world (union_dataframes [PyDF 0; PyDF 1] RefEngine.session0).2) 1
      /\ world (union_dataframes [PyDF 0; PyDF 1] RefEngine.session0).2 !! 1
         = Some RefEngine.cities).
Proof.
  apply (helpers_leave_dataframes_unchanged (E := RefEngine.engine)
           RefEngine.live (option RefEngine.Table) (fun w d => w !! d)
           (fun d other on how w x => RefEngineFacts.join_keeps d other on how w x)
           (fun d other w x => RefEngineFacts.union_keeps d other w x)
           "id" [PyDF 0; PyDF 1] RefEngine.session0 1).
  unfold RefEngine.live. simpl. lia.
Defined.

Lemma create_map_round_trip_witness :
  exists c,
    create_map_from_dict (E := RefEngine.engine) [("a", 1%Z); ("b", 2%Z)] = Ok c
    /\ map_get c (PyStr "b") = Some (PyInt 2).
Proof.
  apply (create_map_round_trip (E := RefEngine.engine)
           RefEngineFacts.create_map_contract [("a", 1%Z); ("b", 2%Z)] "b" 2%Z).
  - unfold wf_dict. compute_done.
  - compute_done.
Defined.

(** C7, as claimed: on the reference engine, whose [create_map] accepts
    an empty list of arguments as the host's does, [create_map_from_dict]
    of the empty dictionary raises nothing: it returns the empty map
    column. *)
Lemma create_map_of_empty_dict_returns :
  create_map_from_dict (E := RefEngine.engine) [] = Ok (RefEngine.CreateMap [])
  /\ ~ exists e, create_map_from_dict (E := RefEngine.engine) [] = Raise e.
Proof.
  split; [reflexivity|]. intros [e He]. discriminate He.
Qed.

(** * Further properties of the helpers *)

Section MoreFacts.

Context {E : Engine}.

Implicit Types (d : DataFrame) (ds : list DataFrame).
Implicit Types (s : Session) (args : list (pyval DataFrame)).

(** ** [reduce] over a sequence in two parts *)

Lemma reduce_from_app {A : Type} (op : A -> A -> M A) (a : A) (l1 l2 : list A) s :
  reduce_from op a (l1 ++ l2) s
  = bind (reduce_from op a l1) (fun v => reduce_from op v l2) s.
Proof.
  revert a s. induction l1 as [|x l1 IH]; intros a s; simpl; [easy|].
  unfold bind. destruct (op a x s) as [[v|e] s1]; [|easy].
  rewrite IH. reflexivity.
Qed.

(** ** Only the first argument is flattened *)

Lemma py_all_columns_then_list column_name ds (l : list DataFrame)
    (rest : list (pyval DataFrame)) s :
  py_all (column_check column_name) ((PyDF <$> ds) ++ PyList l :: rest) s
  = if forallb (fun d => bool_decide (column_name ∈ df_columns (world s) d)) ds
    then (Raise (AttributeError "'list' object has no attribute 'columns'"),
          after_reads ds s)
    else (Ok false, after_reads (checked column_name (world s) ds) s).
Proof.
  revert s. induction ds as [|d ds IH]; intros s.
  - simpl. unfold bind, column_check, bind. simpl. now rewrite after_reads_nil.
  - rewrite fmap_cons. simpl. unfold bind at 1. unfold column_check at 1.
    unfold bind at 1. simpl. unfold ret at 1.
    destruct (bool_decide (column_name ∈ df_columns (world s) d)) eqn:Hd.
    + rewrite IH. simpl.
      destruct (forallb _ ds); now rewrite after_reads_cons.
    + simpl. unfold ret. now rewrite <- after_reads_cons, after_reads_nil.
Qed.

(** X1: a list after a first argument that is a table is not flattened.
    [join_dataframes_on_column] called with the tables [ds] followed by
    a list raises without making a join: the [AttributeError] of reading
    [columns] on the list when every table of [ds] has the column (after
    reading the columns of each), and the missing-column [ValueError]
    when one of them has not (the list is then never looked at). *)
Theorem join_list_in_later_position column_name ds (l : list DataFrame)
    (rest : list (pyval DataFrame)) s :
  ds <> [] ->
  join_dataframes_on_column column_name ((PyDF <$> ds) ++ PyList l :: rest) s
  = if forallb (fun d => bool_decide (column_name ∈ df_columns (world s) d)) ds
    then (Raise (AttributeError "'list' object has no attribute 'columns'"),
          {| world := world s; calls := calls s ++ (ReadColumns <$> ds) |})
    else (Raise (ValueError ("Column '" +:+ column_name +:+
                             "' not found in all DataFrames")),
          {| world := world s;
             calls := calls s
                      ++ (ReadColumns <$> checked column_name (world s) ds) |}).
Proof.
  intros Hne. destruct ds as [|d ds]; [congruence|].
  unfold join_dataframes_on_column.
  change (is_empty ((PyDF <$> d :: ds) ++ PyList l :: rest)) with false.
  change (flatten_first ((PyDF <$> d :: ds) ++ PyList l :: rest))
    with ((PyDF <$> d :: ds) ++ PyList l :: rest).
  cbv iota. unfold bind.
  rewrite (py_all_columns_then_list column_name (d :: ds) l rest s).
  now destruct (forallb _ (d :: ds)).
Qed.

(** ** What [join_dataframes_on_column] asks of the engine *)

Lemma py_all_columns_cons column_name (x : pyval DataFrame)
    (l : list (pyval DataFrame)) s :
  py_all (column_check column_name) (x :: l) s
  = match x with
    | PyDF d =>
        if bool_decide (column_name ∈ df_columns (world s) d)
        then py_all (column_check column_name) l
                    (log (ReadColumns d) (world s) s)
        else (Ok false, log (ReadColumns d) (world s) s)
    | PyList _ =>
        (Raise (AttributeError "'list' object has no attribute 'columns'"), s)
    end.
Proof.
  simpl. unfold bind at 1. unfold column_check at 1. unfold bind at 1.
  destruct x as [d|l']; simpl; [|easy]. unfold ret at 1.
  now destruct (bool_decide _).
Qed.

Lemma py_all_columns_reads column_name (l : list (pyval DataFrame)) s :
  exists reads,
    (py_all (column_check column_name) l s).2 = after_reads reads s
    /\ ((py_all (column_check column_name) l s).1 = Ok true ->
        PyDF <$> reads = l).
Proof.
  revert s. induction l as [|x l IH]; intros s.
  - exists []. simpl. now rewrite after_reads_nil.
  - rewrite py_all_columns_cons. destruct x as [d|l'].
    + destruct (bool_decide (column_name ∈ df_columns (world s) d)).
      * destruct (IH (log (ReadColumns d) (world s) s)) as (reads & Hs & Hok).
        exists (d :: reads). rewrite Hs, after_reads_cons. split; [easy|].
        intros H. rewrite fmap_cons. f_equal. now apply Hok.
      * exists [d]. simpl.
        rewrite <- after_reads_cons, after_reads_nil. easy.
    + exists []. simpl. now rewrite after_reads_nil.
Qed.

Lemma reduce_join_calls column_name (a : pyval DataFrame)
    (l : list (pyval DataFrame)) s :
  exists joins,
    calls (reduce_from (fun df1 df2 => method_join df1 df2 column_name "outer")
                       a l s).2
    = calls s ++ joins
    /\ forallb (is_outer_join_on column_name) joins = true
    /\ length joins <= length l.
Proof.
  revert a s. induction l as [|x l IH]; intros a s; simpl.
  - exists []. rewrite app_nil_r. split; [easy|]. split; [easy|simpl; lia].
  - unfold bind. destruct a as [d1|l1]; simpl.
    + destruct (df_join d1 x column_name "outer" (world s)) as [[c|e] w]; simpl.
      * destruct (IH (PyDF c) (log (CallJoin d1 x column_name "outer") w s))
          as (joins & Hc & Hj & Hl).
        exists (CallJoin d1 x column_name "outer" :: joins). rewrite Hc. simpl.
        rewrite <- app_assoc, !bool_decide_eq_true_2 by easy.
        split; [easy|]. split; [easy|lia].
      * exists [CallJoin d1 x column_name "outer"]. simpl.
        rewrite !bool_decide_eq_true_2 by easy.
        split; [easy|]. split; [easy|lia].
    + exists []. rewrite app_nil_r. split; [easy|]. split; [easy|simpl; lia].
Qed.

(** X2: whatever it is called with, all [join_dataframes_on_column] asks
    of the engine is reads of [columns] followed by joins, each on
    [column_name] with [how="outer"], fewer than there are operands; and
    when a join is made at all, every operand is a table whose columns
    were read before the first join. *)
Theorem join_reads_then_outer_joins column_name args s :
  exists reads joins,
    calls (join_dataframes_on_column column_name args s).2
    = calls s ++ (ReadColumns <$> reads) ++ joins
    /\ forallb (is_outer_join_on column_name) joins = true
    /\ length joins <= length (flatten_first args) - 1
    /\ (joins = [] \/ PyDF <$> reads = flatten_first args).
Proof.
  unfold join_dataframes_on_column. destruct (is_empty args) eqn:Hemp.
  { exists [], []. simpl. rewrite app_nil_r.
    split; [easy|]. split; [easy|]. split; [lia|now left]. }
  unfold bind.
  destruct (py_all_columns_reads column_name (flatten_first args) s)
    as (reads & Hs & Hok).
  destruct (py_all (column_check column_name) (flatten_first args) s)
    as [[ok|e] s1] eqn:Hall; simpl in Hs, Hok; subst s1.
  - destruct ok; simpl.
    + specialize (Hok eq_refl).
      destruct (flatten_first args) as [|a l] eqn:Hflat.
      * exists reads, []. simpl. rewrite app_nil_r.
        split; [easy|]. split; [easy|]. split; [lia|now left].
      * simpl reduce.
        destruct (reduce_join_calls column_name a l (after_reads reads s))
          as (joins & Hc & Hj & Hl).
        exists reads, joins. rewrite Hc. simpl. rewrite <- app_assoc.
        split; [easy|]. split; [easy|]. split; [lia|now right].
    + exists reads, []. simpl. rewrite app_nil_r.
      split; [easy|]. split; [easy|]. split; [lia|now left].
  - exists reads, []. simpl. rewrite app_nil_r.
    split; [easy|]. split; [easy|]. split; [lia|now left].
Qed.

(** X3: whatever it is called with, all [union_dataframes] asks of the
    engine is unions, fewer than there are operands: it never reads a
    schema and never joins. *)
Theorem union_only_unions args s :
  exists unions,
    calls (union_dataframes args s).2 = calls s ++ unions
    /\ forallb is_union_call unions = true
    /\ length unions <= length (flatten_first args) - 1.
Proof.
  unfold union_dataframes. destruct (is_empty args).
  { exists []. simpl. rewrite app_nil_r. split; [easy|]. split; [easy|lia]. }
  destruct (flatten_first args) as [|a l].
  { exists []. simpl. rewrite app_nil_r. split; [easy|]. split; [easy|lia]. }
  simpl reduce.
  destruct (reduce_union_calls a l s) as (unions & Hc & Hu & Hl).
  exists unions. split; [easy|]. split; [easy|simpl; lia].
Qed.

(** ** Errors of the engine *)

(** X4: an error of the engine's [union] comes out of
    [union_dataframes] as it is, and ends the call: when the operands
    before [x] union to [acc] and the engine refuses to union [acc] with
    [x] (a table, or a list in a later position, which is handed over as
    it is), the helper raises the engine's error right after that call,
    whatever operands follow. *)
Theorem union_engine_error_surfaces d1 (pre post : list (pyval DataFrame))
    (x : pyval DataFrame) acc e (w2 : World) s s1 :
  union_dataframes (PyDF d1 :: pre) s = (Ok (PyDF acc), s1) ->
  df_union acc x (world s1) = (Raise e, w2) ->
  union_dataframes (PyDF d1 :: pre ++ x :: post) s
  = (Raise e, {| world := w2; calls := calls s1 ++ [CallUnion acc x] |}).
Proof.
  unfold union_dataframes. simpl. intros Hpre Hx.
  rewrite reduce_from_app. unfold bind at 1. rewrite Hpre.
  simpl. unfold bind, method_union. now rewrite Hx.
Qed.

(** X5: an error of the engine's [join] comes out of
    [join_dataframes_on_column] as it is, and ends the call: for tables
    that all have the column, when the chain of joins of the tables
    before [d] gives [acc] and the engine refuses to join [acc] with [d],
    the helper raises the engine's error right after that call, whatever
    tables follow. *)
Theorem join_engine_error_surfaces column_name d1 (pre post : list DataFrame)
    d acc e (w2 : World) s s1 :
  Forall (fun x => column_name ∈ df_columns (world s) x)
         (d1 :: pre ++ d :: post) ->
  outer_join_chain column_name d1 pre
                   (after_reads (d1 :: pre ++ d :: post) s)
  = (Ok (PyDF acc), s1) ->
  df_join acc (PyDF d) column_name "outer" (world s1) = (Raise e, w2) ->
  join_dataframes_on_column column_name (PyDF <$> d1 :: pre ++ d :: post) s
  = (Raise e,
     {| world := w2;
        calls := calls s1 ++ [CallJoin acc (PyDF d) column_name "outer"] |}).
Proof.
  intros Hall Hpre Hd.
  rewrite (join_run column_name (d1 :: pre ++ d :: post)); [|easy|now left].
  destruct (checked_all column_name (world s) _ Hall) as [-> ->].
  unfold outer_join_chain in Hpre. rewrite <- reduce_from_nest in Hpre.
  rewrite fmap_cons, fmap_app, fmap_cons. simpl reduce.
  rewrite reduce_from_app. unfold bind at 1. rewrite Hpre.
  simpl. unfold bind, method_join. now rewrite Hd.
Qed.

(** ** Unions in two calls *)

(** X6: unioning in two calls is unioning in one: when
    [union_dataframes] of some operands returns [r], calling it again
    with [r] followed by more operands ends as the single call with all
    the operands does: same result or error, same state of the engine,
    same calls. *)
Theorem union_in_two_calls d1 (pre more : list (pyval DataFrame)) r s s1 :
  union_dataframes (PyDF d1 :: pre) s = (Ok (PyDF r), s1) ->
  union_dataframes (PyDF r :: more) s1
  = union_dataframes (PyDF d1 :: pre ++ more) s.
Proof.
  unfold union_dataframes. simpl. intros Hpre.
  rewrite reduce_from_app. unfold bind. now rewrite Hpre.
Qed.

(** ** The result is a table *)

Lemma flatten_first_head args (x : pyval DataFrame) l :
  flatten_first args = x :: l -> exists d, x = PyDF d.
Proof.
  destruct args as [|[d0|l0] args]; simpl; intros H.
  - discriminate.
  - injection H as <- _. now exists d0.
  - destruct l0 as [|d0 l0]; [discriminate|].
    rewrite fmap_cons in H. injection H as <- _. now exists d0.
Qed.

Lemma reduce_from_dataframe
    (op : pyval DataFrame -> pyval DataFrame -> M (pyval DataFrame)) :
  (forall a b s v s', op a b s = (Ok v, s') -> exists d, v = PyDF d) ->
  forall l a s v s',
    (exists d, a = PyDF d) ->
    reduce_from op a l s = (Ok v, s') -> exists d, v = PyDF d.
Proof.
  intros Hop. induction l as [|x l IH]; intros a s v s' Ha; simpl.
  - unfold ret. intros H. injection H as <- _. exact Ha.
  - unfold bind. destruct (op a x s) as [[v1|e] s1] eqn:Hstep; [|discriminate].
    apply IH. exact (Hop a x s v1 s1 Hstep).
Qed.

Lemma method_join_dataframe a b on how s v s' :
  method_join a b on how s = (Ok v, s') -> exists d, v = PyDF d.
Proof.
  unfold method_join. destruct a as [d1|l1]; [|discriminate].
  destruct (df_join d1 b on how (world s)) as [[c|e] w]; simpl;
    [|discriminate].
  intros H. injection H as <- _. now exists c.
Qed.

Lemma method_union_dataframe a b s v s' :
  method_union a b s = (Ok v, s') -> exists d, v = PyDF d.
Proof.
  unfold method_union. destruct a as [d1|l1]; [|discriminate].
  destruct (df_union d1 b (world s)) as [[c|e] w]; simpl; [|discriminate].
  intros H. injection H as <- _. now exists c.
Qed.

(** X7: when one of the two table helpers returns, whatever it was
    called with (tables, lists, or a mix), what it returns is a table,
    never a list. *)
Theorem helpers_return_a_dataframe column_name args s v s' :
  (join_dataframes_on_column column_name args s = (Ok v, s') ->
   exists d, v = PyDF d)
  /\ (union_dataframes args s = (Ok v, s') -> exists d, v = PyDF d).
Proof.
  split.
  - unfold join_dataframes_on_column.
    destruct (is_empty args); [discriminate|]. unfold bind.
    destruct (py_all _ _ s) as [[ok|e] s1]; [|discriminate].
    destruct ok; simpl; [|discriminate].
    destruct (flatten_first args) as [|a l] eqn:Hflat; [discriminate|].
    simpl reduce. apply reduce_from_dataframe.
    + intros a0 b s0 v0 s0'. apply method_join_dataframe.
    + exact (flatten_first_head args a l Hflat).
  - unfold union_dataframes.
    destruct (is_empty args); [discriminate|].
    destruct (flatten_first args) as [|a l] eqn:Hflat; [discriminate|].
    simpl reduce. apply reduce_from_dataframe.
    + intros a0 b s0 v0 s0'. apply method_union_dataframe.
    + exact (flatten_first_head args a l Hflat).
Qed.

(** ** The literals handed to [create_map] *)

Lemma chain_length (dict_ : pydict) :
  length (chain (items dict_)) = 2 * length dict_.
Proof.
  unfold chain, items. induction dict_ as [|[k v] dict_ IH]; [easy|].
  rewrite fmap_cons. cbn [concat]. rewrite length_app, IH. simpl. lia.
Qed.

Lemma chain_lookup (dict_ : pydict) i k v :
  items dict_ !! i = Some (k, v) ->
  chain (items dict_) !! (2 * i) = Some (PyStr k)
  /\ chain (items dict_) !! (2 * i + 1) = Some (PyInt v).
Proof.
  unfold chain, items. revert i.
  induction dict_ as [|[k0 v0] dict_ IH]; intros i Hi; [easy|].
  rewrite fmap_cons. cbn [concat tuple_elems fst snd app].
  destruct i as [|i].
  - injection Hi as -> ->. easy.
  - replace (2 * S i) with (S (S (2 * i))) by lia.
    replace (S (S (2 * i)) + 1) with (S (S (2 * i + 1))) by lia.
    exact (IH i Hi).
Qed.

(** X8: [create_map_from_dict] hands the engine's [create_map] two
    literals for each item of the dictionary, in the order of the items:
    the literal of the key of item [i] at position [2i] and the literal
    of its value at position [2i+1]; so the list is never of odd
    length. *)
Theorem create_map_literal_layout (dict_ : pydict) :
  exists cols,
    create_map_from_dict dict_ = F_create_map cols
    /\ length cols = 2 * length dict_
    /\ forall i k v,
         items dict_ !! i = Some (k, v) ->
         cols !! (2 * i) = Some (F_lit (PyStr k))
         /\ cols !! (2 * i + 1) = Some (F_lit (PyInt v)).
Proof.
  exists (F_lit <$> chain (items dict_)). split; [reflexivity|]. split.
  - rewrite length_fmap. apply chain_length.
  - intros i k v Hi. destruct (chain_lookup dict_ i k v Hi) as [Hk Hv].
    rewrite !list_lookup_fmap, Hk, Hv. easy.
Qed.

(** ** A normal return of the join *)

Lemma py_all_columns_true column_name (l : list (pyval DataFrame)) s s' :
  py_all (column_check column_name) l s = (Ok true, s') ->
  exists ds,
    l = PyDF <$> ds
    /\ Forall (fun d => column_name ∈ df_columns (world s) d) ds.
Proof.
  revert s. induction l as [|x l IH]; intros s.
  - intros _. now exists [].
  - rewrite py_all_columns_cons. destruct x as [d|l0]; [|discriminate].
    destruct (bool_decide (column_name ∈ df_columns (world s) d)) eqn:Hd;
      [|discriminate].
    intros H. destruct (IH _ H) as (ds & -> & Hall).
    exists (d :: ds). split; [easy|]. constructor; [|exact Hall].
    exact (bool_decide_eq_true_1 _ Hd).
Qed.

(** X9: [join_dataframes_on_column] returns only when its operands (the
    arguments, or the tables of the list in the first position) are at
    least one and all tables with the column: a list in a later
    position, or a table without the column, never gets a result. *)
Theorem join_returns_only_checked_tables column_name args s v s' :
  join_dataframes_on_column column_name args s = (Ok v, s') ->
  exists ds,
    ds <> []
    /\ flatten_first args = PyDF <$> ds
    /\ Forall (fun d => column_name ∈ df_columns (world s) d) ds.
Proof.
  unfold join_dataframes_on_column.
  destruct (is_empty args); [discriminate|]. unfold bind.
  destruct (py_all (column_check column_name) (flatten_first args) s)
    as [[ok|e] s1] eqn:Hall; [|discriminate].
  destruct ok; simpl; [|discriminate].
  destruct (py_all_columns_true column_name _ s s1 Hall) as (ds & Hflat & Hcols).
  rewrite Hflat. intros Hred. exists ds. split; [|easy].
  intros ->. discriminate Hred.
Qed.

End MoreFacts.

(** ** The further properties on the reference engine *)

Lemma join_list_in_later_position_witness :
  join_dataframes_on_column "id" [PyDF 0; PyDF 1; PyList [2]] RefEngine.session0
  = (Raise (AttributeError "'list' object has no attribute 'columns'"),
     {| world := RefEngine.tables0; calls := [ReadColumns 0; ReadColumns 1] |}).
Proof.
  apply (join_list_in_later_position (E := RefEngine.engine) "id" [0; 1] [2] []
           RefEngine.session0).
  discriminate.
Defined.

Lemma union_engine_error_surfaces_witness :
  union_dataframes [PyDF 0; PyDF 1; PyList [2]; PyDF 2] RefEngine.session0
  = (Raise (AttributeError "'list' object has no attribute '_jdf'"),
     {| world := world (union_dataframes (E := RefEngine.engine) [PyDF 0; PyDF 1] RefEngine.session0).2;
        calls := [CallUnion 0 (PyDF 1); CallUnion 3 (PyList [2])] |}).
Proof.
  apply (union_engine_error_surfaces (E := RefEngine.engine) 0 [PyDF 1]
           [PyDF 2] (PyList [2]) 3
           (AttributeError "'list' object has no attribute '_jdf'")
           (world (union_dataframes (E := RefEngine.engine) [PyDF 0; PyDF 1] RefEngine.session0).2)
           RefEngine.session0
           (union_dataframes (E := RefEngine.engine) [PyDF 0; PyDF 1] RefEngine.session0).2).
  - reflexivity.
  - reflexivity.
Defined.

Lemma join_engine_error_surfaces_witness :
  join_dataframes_on_column (E := refusing_join) "id" [PyDF 0; PyDF 1; PyDF 0]
    (@mkSession refusing_join RefEngine.tables0 [])
  = (Raise (AnalysisException "join refused"),
     @mkSession refusing_join RefEngine.tables0
       [@ReadColumns refusing_join 0; @ReadColumns refusing_join 1;
        @ReadColumns refusing_join 0;
        @CallJoin refusing_join 0 (PyDF 1) "id" "outer"]).
Proof.
  apply (join_engine_error_surfaces (E := refusing_join) "id" 0 [] [0] 1 0
           (AnalysisException "join refused") RefEngine.tables0
           (@mkSession refusing_join RefEngine.tables0 [])
           (@mkSession refusing_join RefEngine.tables0
              [@ReadColumns refusing_join 0; @ReadColumns refusing_join 1;
               @ReadColumns refusing_join 0])).
  - repeat constructor; compute_done.
  - reflexivity.
  - reflexivity.
Defined.

Lemma union_in_two_calls_witness :
  union_dataframes [PyDF 3; PyDF 2]
    (union_dataframes (E := RefEngine.engine) [PyDF 0; PyDF 1] RefEngine.session0).2
  = union_dataframes [PyDF 0; PyDF 1; PyDF 2] RefEngine.session0.
Proof.
  apply (union_in_two_calls (E := RefEngine.engine) 0 [PyDF 1] [PyDF 2] 3
           RefEngine.session0).
  reflexivity.
Defined.

Lemma helpers_return_a_dataframe_witness :
  (exists d : nat, PyDF 3 = PyDF d) /\ (exists d : nat, PyDF 3 = PyDF d).
Proof.
  destruct (helpers_return_a_dataframe (E := RefEngine.engine) "id"
              [PyList [0; 1]; PyList [2]] RefEngine.session0 (PyDF 3)
              (join_dataframes_on_column (E := RefEngine.engine) "id"
                 [PyList [0; 1]] RefEngine.session0).2)
    as [Hjoin _].
  destruct (helpers_return_a_dataframe (E := RefEngine.engine) "id"
              [PyList [0; 1]; PyList [2]] RefEngine.session0 (PyDF 3)
              (union_dataframes (E := RefEngine.engine) [PyList [0; 1]]
                 RefEngine.session0).2)
    as [_ Hunion].
  split; [apply Hjoin | apply Hunion]; reflexivity.
Defined.

Lemma create_map_literal_layout_witness :
  exists cols,
    create_map_from_dict (E := RefEngine.engine) [("a", 1%Z); ("b", 2%Z)]
    = Ok (RefEngine.CreateMap cols)
    /\ length cols = 4
    /\ cols !! 2 = Some (RefEngine.Lit (PyStr "b"))
    /\ cols !! 3 = Some (RefEngine.Lit (PyInt 2)).
Proof.
  destruct (create_map_literal_layout (E := RefEngine.engine)
              [("a", 1%Z); ("b", 2%Z)]) as (cols & Hmap & Hlen & Hpos).
  exists cols. split; [exact Hmap|]. split; [exact Hlen|].
  apply (Hpos 1 "b" 2%Z). reflexivity.
Defined.

Lemma join_returns_only_checked_tables_witness :
  exists ds : list nat,
    ds <> []
    /\ [PyDF 0; PyDF 1] = PyDF <$> ds
    /\ Forall (fun d => "id" ∈ RefEngine.columns RefEngine.tables0 d) ds.
Proof.
  apply (join_returns_only_checked_tables (E := RefEngine.engine) "id"
           [PyList [0; 1]; PyDF 2] RefEngine.session0 (PyDF 3)
           (join_dataframes_on_column (E := RefEngine.engine) "id"
              [PyDF 0; PyDF 1] RefEngine.session0).2).
  reflexivity.
Defined.
